(** * token_service.py: the prompt-to-budget pipeline

    A shallow embedding of [src/main.py]: [TokenOptimizer], [TokenEncoder],
    [TokenCounter], [TokenTruncator] and the orchestrating [TokenService],
    followed by the properties of the pipeline.

    Conventions.
    - A Python [str] is a sequence of Unicode code points: [str := list N].
    - A token is a Python [int]: [Z]; a token list is [list Z].
    - [tiktoken] is an external library.  Its registry and its encodings are
      taken as data ([Registry], [Encoding]); a call into it either returns
      or raises, which is a [Result].
    - [logging] calls are kept: every operation yields the records it emits
      together with its outcome (the monad [M]).
    - An f-string is evaluated before the record is emitted, so that a
      conversion that raises leaves no record. *)

From Stdlib Require Import List ZArith NArith String Ascii Bool Lia.
Import ListNotations.

Local Open Scope Z_scope.

(** ** Python strings *)

Module PyStr.

Definition char : Type := N.
Definition str : Type := list char.

(** A Rocq string literal read as a Python string (one code point per
    character; enough for the ASCII literals of the source). *)
Fixpoint of_string (s : string) : str :=
  match s with
  | EmptyString => []
  | String a s' => N_of_ascii a :: of_string s'
  end.

(** [str.isspace] on one code point, as CPython's [_PyUnicode_IsWhitespace]
    decides it: the characters whose bidirectional type is WS, B or S, or
    whose category is Zs. *)
Definition isspace (c : char) : bool :=
  ((9 <=? c) && (c <=? 13) ||
   (28 <=? c) && (c <=? 32) ||
   (c =? 133) || (c =? 160) || (c =? 5760) ||
   (8192 <=? c) && (c <=? 8202) ||
   (c =? 8232) || (c =? 8233) || (c =? 8239) || (c =? 8287) ||
   (c =? 12288))%N.

(** [s.lstrip()]: drop the leading run of whitespace. *)
Fixpoint lstrip (s : str) : str :=
  match s with
  | [] => []
  | c :: s' => if isspace c then lstrip s' else s
  end.

(** [s.rstrip()]: drop the trailing run of whitespace. *)
Fixpoint rstrip (s : str) : str :=
  match s with
  | [] => []
  | c :: s' =>
      match rstrip s' with
      | [] => if isspace c then [] else [c]
      | r => c :: r
      end
  end.

(** [s.strip()]: CPython advances the left index over whitespace, then
    moves the right index back over whitespace without crossing the left
    one, and returns the slice between them. *)
Definition strip (s : str) : str := rstrip (lstrip s).

Definition all_space (s : str) : Prop := Forall (fun c => isspace c = true) s.

(** The first and the last character of [s], if any, are not whitespace. *)
Definition trimmed (s : str) : Prop :=
  (forall c s', s = c :: s' -> isspace c = false) /\
  (forall c s', s = s' ++ [c] -> isspace c = false).

End PyStr.
Import PyStr.

(** ** Python lists *)

Module PyList.

Section Slicing.
Context {A : Type}.

(** [len(l)], a Python [int]. *)
Definition len (l : list A) : Z := Z.of_nat (List.length l).

(** [l[:stop]] for an [int] [stop]: a negative [stop] counts from the end
    ([stop + len(l)], clamped at 0), a non-negative one is clamped at
    [len(l)]; the slice is a fresh list of the elements before that index.
    Slicing never raises. *)
Definition slice_to (l : list A) (stop : Z) : list A :=
  let n := len l in
  let stop' := if stop <? 0 then Z.max (stop + n) 0 else Z.min stop n in
  firstn (Z.to_nat stop') l.

(** [p] is a prefix of [l]. *)
Definition Prefix (p l : list A) : Prop := exists rest, l = p ++ rest.

End Slicing.

End PyList.
Import PyList.

(** ** Exceptions, log records and the monad of the embedding *)

(** A raised exception: its class, its message, and whether its class
    derives from [Exception] (KeyboardInterrupt, SystemExit and GeneratorExit
    derive from [BaseException] only). *)
Record exn : Type :=
  mkExn { exn_class : string; exn_msg : string; is_Exception : bool }.

Inductive Result (A : Type) : Type :=
| Ok (a : A)
| Err (e : exn).
Arguments Ok {A} a.
Arguments Err {A} e.

Inductive Level : Type := DEBUG | INFO | WARNING | ERROR.

(** The value interpolated into an f-string message. *)
Inductive LogArg : Type :=
| AStr (s : str)
| AInt (n : Z)
| ATokens (l : list Z)
| AExn (e : exn).

(** One call of [logging.debug], [logging.info] or [logging.error]: the
    level, the literal part of the message and the interpolated value. *)
Record LogRecord : Type :=
  mkLog { log_level : Level; log_text : string; log_arg : LogArg }.

(** A computation emits log records and then returns or raises. *)
Definition M (A : Type) : Type := (list LogRecord * Result A)%type.

Definition ret {A} (a : A) : M A := ([], Ok a).

Definition bind {A B} (m : M A) (f : A -> M B) : M B :=
  match m with
  | (l, Ok a) => let (l', r) := f a in (l ++ l', r)
  | (l, Err e) => (l, Err e)
  end.

(** A call into the external library: no log record of this module. *)
Definition call {A} (r : Result A) : M A := ([], r).

Definition logging (lvl : Level) (text : string) (arg : LogArg) : M unit :=
  ([mkLog lvl text arg], Ok tt).

(** [try: body except Exception as e: handler e]: the handler runs for an
    exception whose class derives from [Exception]; any other exception
    leaves the statement as it is. *)
Definition try_except {A} (body : M A) (handler : exn -> M A) : M A :=
  match body with
  | (l, Ok a) => (l, Ok a)
  | (l, Err e) =>
      if is_Exception e
      then let (l', r) := handler e in (l ++ l', r)
      else (l, Err e)
  end.

Definition emitted {A} (m : M A) : list LogRecord := fst m.
Definition outcome {A} (m : M A) : Result A := snd m.

(** [m] returns [a] (and does not raise). *)
Definition returns {A} (m : M A) (a : A) : Prop := outcome m = Ok a.

(** [m] raises [e]. *)
Definition raises {A} (m : M A) (e : exn) : Prop := outcome m = Err e.

Declare Scope py_scope.
Delimit Scope py_scope with py.
Notation "x <- m ;; k" := (bind m (fun x => k))
  (at level 61, m at next level, right associativity) : py_scope.
Notation "m ;; k" := (bind m (fun _ => k))
  (at level 61, right associativity) : py_scope.
Local Open Scope py_scope.
Local Open Scope string_scope.

(** ** Converting an [int] to text

    CPython refuses to convert to decimal an [int] of more than
    [int_max_str_digits] digits (4300 unless configured otherwise): [str(n)]
    and [f"{n}"] then raise ValueError.  Of the integers this file puts in
    a message, the counts are lengths of lists, at most [maxsize], and the
    token ids are ranks in a vocabulary; only the configured limit can be
    too long. *)

Module PyInt.

Definition int_max_str_digits : Z := 4300.

(** The least absolute value with more than [int_max_str_digits] digits. *)
Definition str_limit : Z := 10 ^ int_max_str_digits.

Definition ValueError : exn :=
  mkExn "ValueError"
    "Exceeds the limit (4300 digits) for integer string conversion" true.

(** [f"{n}"] for an [int] [n]: the value to interpolate, or ValueError. *)
Definition format (n : Z) : Result LogArg :=
  if (str_limit <=? Z.abs n)%Z then Err ValueError else Ok (AInt n).

(** The largest length of a list ([sys.maxsize]). *)
Definition maxsize : Z := 2 ^ 63 - 1.

End PyInt.

Arguments PyInt.str_limit : simpl never.

(** ** The configuration of [logging] at import

    [logging.basicConfig(level=logging.INFO, ...)] sets the level of the root
    logger, through which every [logging.debug], [logging.info] and
    [logging.error] of this file goes: a record is handled when the number of
    its level is at least the number of the root level. *)

Module Logging.

Definition levelno (lvl : Level) : Z :=
  match lvl with
  | DEBUG => 10
  | INFO => 20
  | WARNING => 30
  | ERROR => 40
  end.

Definition root_level : Z := levelno INFO.

Definition isEnabledFor (lvl : Level) : bool := levelno lvl >=? root_level.

(** The records that reach the handler, in the order of their emission. *)
Definition handled (records : list LogRecord) : list LogRecord :=
  filter (fun r => isEnabledFor (log_level r)) records.

End Logging.

(** ** The external library [tiktoken] *)

Module tiktoken.

(** An encoding object: its name and its [encode] method on a text with the
    default arguments, which returns the token ids or raises. *)
Record Encoding : Type :=
  mkEncoding { name : str; encode : str -> Result (list Z) }.

(** The vocabulary registry: [encoding_for_model(model)] raises for a model
    name it does not recognise; [get_encoding(name)] returns the encoding of
    that name or raises. *)
Record Registry : Type :=
  mkRegistry {
    encoding_for_model : str -> Result Encoding;
    get_encoding : str -> Result Encoding
  }.

End tiktoken.

(** ** class TokenOptimizer *)

Module TokenOptimizer.

Inductive t : Type := new.

Definition optimize_prompt (self : t) (prompt : str) : M str :=
  let optimized_prompt := strip prompt in
  logging DEBUG "Optimized Prompt: " (AStr optimized_prompt) ;;
  ret optimized_prompt.

End TokenOptimizer.

(** ** class TokenEncoder *)

Module TokenEncoder.

Record t : Type := mk { encoding : tiktoken.Encoding }.

Definition default_model : str := of_string "gpt-3.5-turbo".
Definition fallback_encoding : str := of_string "cl100k_base".

Definition __init__ (reg : tiktoken.Registry) (model : str) : M t :=
  try_except
    (enc <- call (tiktoken.encoding_for_model reg model) ;;
     logging INFO "Initialized encoding for model: " (AStr model) ;;
     ret (mk enc))
    (fun e =>
     logging ERROR "Failed to initialize tiktoken encoding: " (AExn e) ;;
     enc <- call (tiktoken.get_encoding reg fallback_encoding) ;;
     ret (mk enc)).

Definition encode (self : t) (prompt : str) : M (list Z) :=
  encoded <- call (tiktoken.encode (encoding self) prompt) ;;
  logging DEBUG "Encoded Prompt: " (ATokens encoded) ;;
  ret encoded.

End TokenEncoder.

(** ** class TokenCounter *)

Module TokenCounter.

Inductive t : Type := new.

Definition get_token_count (self : t) (tokens : list Z) : M Z :=
  let count := len tokens in
  logging DEBUG "Token Count: " (AInt count) ;;
  ret count.

End TokenCounter.

(** ** class TokenTruncator *)

Module TokenTruncator.

Record t : Type := mk { token_limit : Z }.

Definition __init__ (token_limit : Z) : M t := ret (mk token_limit).

(** [f"Truncated tokens to limit: {self.token_limit}"], which is evaluated
    on the branch [len(tokens) > self.token_limit] only.  There the limit is
    below the length of a list, hence below [PyInt.maxsize], and it is too
    long to convert exactly when it is [- PyInt.str_limit] or less. *)
Definition format_limit (token_limit : Z) : Result LogArg :=
  if (token_limit <=? - PyInt.str_limit)%Z
  then Err PyInt.ValueError
  else Ok (AInt token_limit).

Definition truncate (self : t) (tokens : list Z) : M (list Z) :=
  if len tokens >? token_limit self then
    let truncated := slice_to tokens (token_limit self) in
    message <- call (format_limit (token_limit self)) ;;
    logging INFO "Truncated tokens to limit: " message ;;
    ret truncated
  else
    ret tokens.

End TokenTruncator.

(** ** class TokenService *)

Module TokenService.

Record t : Type :=
  mk {
    optimizer : TokenOptimizer.t;
    encoder : TokenEncoder.t;
    counter : TokenCounter.t;
    truncator : TokenTruncator.t
  }.

Definition default_token_limit : Z := 4096.

(** The dictionary returned by [process_prompt], one field per key. *)
Record ProcessingResult : Type :=
  mkResult {
    optimized_prompt : str;
    encoded_tokens : list Z;
    token_count_before : Z;
    truncated_tokens : list Z;
    token_count_after : Z
  }.

Definition __init__ (reg : tiktoken.Registry) (model : str) (token_limit : Z)
  : M t :=
  let optimizer := TokenOptimizer.new in
  encoder <- TokenEncoder.__init__ reg model ;;
  let counter := TokenCounter.new in
  truncator <- TokenTruncator.__init__ token_limit ;;
  ret (mk optimizer encoder counter truncator).

Definition process_prompt (self : t) (prompt : str) : M ProcessingResult :=
  optimized_prompt <- TokenOptimizer.optimize_prompt (optimizer self) prompt ;;
  encoded_tokens <- TokenEncoder.encode (encoder self) optimized_prompt ;;
  token_count_before <-
    TokenCounter.get_token_count (counter self) encoded_tokens ;;
  logging INFO "Tokens before truncation: " (AInt token_count_before) ;;
  truncated_tokens <- TokenTruncator.truncate (truncator self) encoded_tokens ;;
  token_count_after <-
    TokenCounter.get_token_count (counter self) truncated_tokens ;;
  logging INFO "Tokens after truncation: " (AInt token_count_after) ;;
  ret (mkResult optimized_prompt encoded_tokens token_count_before
         truncated_tokens token_count_after).

End TokenService.

(** ** Sample collaborators, for running the pipeline on concrete inputs *)

Module Sample.

Fixpoint str_eqb (a b : str) : bool :=
  match a, b with
  | [], [] => true
  | x :: a', y :: b' => N.eqb x y && str_eqb a' b'
  | _, _ => false
  end.

(** An encoding with one token per code point; it accepts every text. *)
Definition codepoints : tiktoken.Encoding :=
  tiktoken.mkEncoding TokenEncoder.fallback_encoding
    (fun text => Ok (map Z.of_N text)).

(** An encoding that raises on every text but the empty one. *)
Definition broken : tiktoken.Encoding :=
  tiktoken.mkEncoding (of_string "broken")
    (fun text =>
       match text with
       | [] => Ok []
       | _ => Err (mkExn "ValueError" "cannot tokenize" true)
       end).

(** An encoding that, as tiktoken does for a special token it is not allowed
    to encode, raises on the text <|endoftext|>, and has one token per code
    point on every other text. *)
Definition guarded : tiktoken.Encoding :=
  tiktoken.mkEncoding TokenEncoder.fallback_encoding
    (fun text =>
       if str_eqb text (of_string "<|endoftext|>")
       then Err (mkExn "ValueError" "disallowed special token" true)
       else Ok (map Z.of_N text)).

(** A registry that knows the models gpt-4 and gpt-3.5-turbo and the
    vocabulary cl100k_base, and raises for every other name. *)
Definition registry : tiktoken.Registry :=
  tiktoken.mkRegistry
    (fun model =>
       if str_eqb model (of_string "gpt-4")
          || str_eqb model TokenEncoder.default_model
       then Ok codepoints
       else Err (mkExn "KeyError" "could not map the model to a tokeniser"
                   true))
    (fun name =>
       if str_eqb name TokenEncoder.fallback_encoding
       then Ok codepoints
       else Err (mkExn "ValueError" "unknown encoding" true)).

(** A registry that recognises no model and cannot load any vocabulary. *)
Definition offline : tiktoken.Registry :=
  tiktoken.mkRegistry
    (fun _ =>
       Err (mkExn "KeyError" "could not map the model to a tokeniser" true))
    (fun _ => Err (mkExn "ConnectionError" "vocabulary file unavailable" true)).

(** A registry whose lookup by model is interrupted from the keyboard. *)
Definition interrupted : tiktoken.Registry :=
  tiktoken.mkRegistry
    (fun _ => Err (mkExn "KeyboardInterrupt" "interrupted" false))
    (fun _ => Ok codepoints).

(** A service over [codepoints] with the given limit. *)
Definition service (limit : Z) : TokenService.t :=
  TokenService.mk TokenOptimizer.new (TokenEncoder.mk codepoints)
    TokenCounter.new (TokenTruncator.mk limit).

End Sample.

(** * Properties *)

Local Open Scope list_scope.

(** Unfolds the monad so that a computation shows its records and outcome. *)
Ltac run_py :=
  unfold returns, raises, outcome, emitted, bind, ret, call, logging,
    try_except in *; cbn [fst snd] in *.

(** ** Whitespace stripping *)

Section Strip.

Lemma lstrip_split (s : str) :
  exists pre, s = pre ++ lstrip s /\ all_space pre.
Proof.
  induction s as [|c s IH]; simpl.
  - exists []. split; [reflexivity | constructor].
  - destruct (isspace c) eqn:Hc.
    + destruct IH as (pre & Hs & Hpre).
      exists (c :: pre). split.
      * simpl. now rewrite <- Hs.
      * now constructor.
    + exists []. split; [reflexivity | constructor].
Qed.

Lemma lstrip_head (s : str) :
  lstrip s = [] \/ exists c s', lstrip s = c :: s' /\ isspace c = false.
Proof.
  induction s as [|c s IH]; simpl.
  - now left.
  - destruct (isspace c) eqn:Hc; [exact IH | right; eauto].
Qed.

Lemma lstrip_fixed (c : char) (s : str) :
  isspace c = false -> lstrip (c :: s) = c :: s.
Proof. intros Hc. simpl. now rewrite Hc. Qed.

Lemma rstrip_split (s : str) :
  exists suf, s = rstrip s ++ suf /\ all_space suf.
Proof.
  induction s as [|c s IH]; simpl.
  - exists []. split; [reflexivity | constructor].
  - destruct IH as (suf & Hs & Hsuf).
    destruct (rstrip s) as [|y r] eqn:Hr.
    + simpl in Hs. subst suf.
      destruct (isspace c) eqn:Hc.
      * exists (c :: s). split; [reflexivity | now constructor].
      * exists s. split; [reflexivity | assumption].
    + exists suf. split; [| assumption].
      simpl. now rewrite Hs at 1.
Qed.

Lemma rstrip_head (c : char) (s : str) :
  isspace c = false -> exists r, rstrip (c :: s) = c :: r.
Proof.
  intros Hc. simpl. destruct (rstrip s) as [|y r].
  - rewrite Hc. now exists [].
  - now exists (y :: r).
Qed.

Lemma rstrip_last (s : str) :
  forall c s', rstrip s = s' ++ [c] -> isspace c = false.
Proof.
  induction s as [|a s IH]; simpl; intros c s' H.
  - now destruct s'.
  - destruct (rstrip s) as [|y r] eqn:Hr.
    + destruct (isspace a) eqn:Ha.
      * now destruct s'.
      * destruct s' as [|b s'].
        -- now injection H as ->.
        -- injection H as _ H. now destruct s'.
    + destruct s' as [|b s'].
      * discriminate H.
      * injection H as _ H. now apply (IH c s').
Qed.

Lemma rstrip_cons (c : char) (s : str) :
  rstrip (c :: s) =
  match rstrip s with
  | [] => if isspace c then [] else [c]
  | r => c :: r
  end.
Proof. reflexivity. Qed.

Lemma rstrip_idempotent (s : str) : rstrip (rstrip s) = rstrip s.
Proof.
  induction s as [|a s IH]; [reflexivity|].
  rewrite rstrip_cons.
  destruct (rstrip s) as [|y r] eqn:Hr.
  - destruct (isspace a) eqn:Ha; simpl; [reflexivity | now rewrite Ha].
  - now rewrite rstrip_cons, IH.
Qed.

Lemma strip_split (s : str) :
  exists pre suf, s = pre ++ strip s ++ suf /\ all_space pre /\ all_space suf.
Proof.
  destruct (lstrip_split s) as (pre & Hs & Hpre).
  destruct (rstrip_split (lstrip s)) as (suf & Hl & Hsuf).
  exists pre, suf. unfold strip.
  rewrite <- Hl. auto.
Qed.

Lemma strip_trimmed (s : str) : trimmed (strip s).
Proof.
  unfold strip. split.
  - intros c s' H.
    destruct (lstrip_head s) as [E | (c0 & s0 & E & Hc0)]; rewrite E in H.
    + discriminate H.
    + destruct (rstrip_head c0 s0 Hc0) as (r & Hr).
      rewrite Hr in H. now injection H as <- _.
  - intros c s'. apply rstrip_last.
Qed.

Lemma strip_idempotent (s : str) : strip (strip s) = strip s.
Proof.
  unfold strip.
  destruct (lstrip_head s) as [E | (c0 & s0 & E & Hc0)]; rewrite E.
  - reflexivity.
  - destruct (rstrip_head c0 s0 Hc0) as (r & Hr).
    rewrite Hr, (lstrip_fixed c0 r Hc0), <- Hr.
    apply rstrip_idempotent.
Qed.

(** A text with no whitespace at either end is left as it is. *)
Lemma strip_of_trimmed (s : str) : trimmed s -> strip s = s.
Proof.
  intros [Hfirst Hlast]. unfold strip.
  assert (Hl : lstrip s = s).
  { destruct s as [|c s]; [reflexivity|].
    apply lstrip_fixed. now apply (Hfirst c s). }
  rewrite Hl.
  destruct (rstrip_split s) as (suf & Hs & Hsuf).
  destruct suf as [|x suf].
  - now rewrite app_nil_r in Hs.
  - exfalso.
    assert (Hne : x :: suf <> []) by discriminate.
    destruct (exists_last Hne) as (q & z & Hq).
    rewrite Hq in Hs, Hsuf.
    apply Forall_app in Hsuf as [_ Hz].
    inversion Hz as [|? ? Hzs _]; subst.
    rewrite app_assoc in Hs.
    rewrite (Hlast z _ Hs) in Hzs. discriminate.
Qed.

End Strip.

(** ** Slicing *)

Section SliceFacts.
Context {A : Type}.
Implicit Types (l : list A) (stop : Z).

Lemma len_nonneg l : 0 <= len l.
Proof. unfold len. lia. Qed.

Lemma len_nil_inv l : len l = 0 -> l = [].
Proof. destruct l; [reflexivity | unfold len; simpl; lia]. Qed.

Lemma slice_to_nonneg l stop :
  0 <= stop -> slice_to l stop = firstn (Z.to_nat stop) l.
Proof.
  intros Hstop. unfold slice_to.
  destruct (Z.ltb_spec stop 0) as [Hlt | _]; [lia|].
  destruct (Z.le_ge_cases stop (len l)) as [Hle | Hge].
  - now rewrite Z.min_l.
  - rewrite Z.min_r by assumption.
    unfold len in *. rewrite Nat2Z.id, firstn_all.
    symmetry. apply firstn_all2. lia.
Qed.

Lemma slice_to_negative l stop :
  stop < 0 -> slice_to l stop = firstn (Z.to_nat (Z.max 0 (len l + stop))) l.
Proof.
  intros Hstop. unfold slice_to.
  destruct (Z.ltb_spec stop 0) as [_ | Hge]; [| lia].
  now rewrite Z.max_comm, Z.add_comm.
Qed.

Lemma firstn_Prefix (n : nat) l : Prefix (firstn n l) l.
Proof. exists (skipn n l). symmetry. apply firstn_skipn. Qed.

Lemma slice_to_Prefix l stop : Prefix (slice_to l stop) l.
Proof. unfold slice_to. apply firstn_Prefix. Qed.

Lemma Prefix_refl l : Prefix l l.
Proof. exists []. now rewrite app_nil_r. Qed.

Lemma len_firstn (n : nat) l : len (firstn n l) = Z.min (Z.of_nat n) (len l).
Proof. unfold len. rewrite length_firstn. lia. Qed.

Lemma len_app l l' : len (l ++ l') = len l + len l'.
Proof. unfold len. rewrite length_app. lia. Qed.

End SliceFacts.

(** ** Converting the limit *)

Lemma str_limit_pos : 0 < PyInt.str_limit.
Proof.
  unfold PyInt.str_limit, PyInt.int_max_str_digits.
  apply Z.pow_pos_nonneg; lia.
Qed.

Lemma maxsize_lt_str_limit : PyInt.maxsize < PyInt.str_limit.
Proof. reflexivity. Qed.

Lemma format_limit_ok (token_limit : Z) :
  - PyInt.str_limit < token_limit ->
  TokenTruncator.format_limit token_limit = Ok (AInt token_limit).
Proof.
  intros H. unfold TokenTruncator.format_limit.
  destruct (Z.leb_spec token_limit (- PyInt.str_limit)); [lia | reflexivity].
Qed.

Lemma format_limit_raises (token_limit : Z) :
  token_limit <= - PyInt.str_limit ->
  TokenTruncator.format_limit token_limit = Err PyInt.ValueError.
Proof.
  intros H. unfold TokenTruncator.format_limit.
  destruct (Z.leb_spec token_limit (- PyInt.str_limit)); [reflexivity | lia].
Qed.

(** On every limit that can be below the length of a list, [format_limit]
    is the conversion of an [int] in an f-string. *)
Lemma format_limit_agrees (token_limit : Z) :
  token_limit <= PyInt.maxsize ->
  TokenTruncator.format_limit token_limit = PyInt.format token_limit.
Proof.
  intros H. pose proof maxsize_lt_str_limit as Hmax.
  unfold TokenTruncator.format_limit, PyInt.format.
  destruct (Z.leb_spec token_limit (- PyInt.str_limit));
    destruct (Z.leb_spec PyInt.str_limit (Z.abs token_limit));
    try reflexivity; lia.
Qed.

(** ** The components, one at a time *)

Lemma optimize_prompt_returns (self : TokenOptimizer.t) (prompt : str) :
  returns (TokenOptimizer.optimize_prompt self prompt) (strip prompt).
Proof. reflexivity. Qed.

Lemma get_token_count_returns (self : TokenCounter.t) (tokens : list Z) :
  returns (TokenCounter.get_token_count self tokens) (len tokens).
Proof. reflexivity. Qed.

Lemma encode_outcome (self : TokenEncoder.t) (prompt : str) :
  outcome (TokenEncoder.encode self prompt) =
  tiktoken.encode (TokenEncoder.encoding self) prompt.
Proof.
  unfold TokenEncoder.encode. run_py.
  now destruct (tiktoken.encode (TokenEncoder.encoding self) prompt).
Qed.

(** With a limit that can be converted, [truncate] returns: the slice, after
    one record, when the list is longer than the limit, and the list itself,
    with no record, otherwise. *)
Lemma truncate_ok (self : TokenTruncator.t) (tokens : list Z) :
  - PyInt.str_limit < TokenTruncator.token_limit self ->
  TokenTruncator.truncate self tokens =
  if len tokens >? TokenTruncator.token_limit self
  then ([mkLog INFO "Truncated tokens to limit: "
           (AInt (TokenTruncator.token_limit self))],
        Ok (slice_to tokens (TokenTruncator.token_limit self)))
  else ([], Ok tokens).
Proof.
  intros H. unfold TokenTruncator.truncate.
  rewrite (format_limit_ok _ H).
  now destruct (len tokens >? TokenTruncator.token_limit self).
Qed.

(** With a limit too long to convert, [truncate] raises on every list,
    before any record. *)
Lemma truncate_too_negative (self : TokenTruncator.t) (tokens : list Z) :
  TokenTruncator.token_limit self <= - PyInt.str_limit ->
  TokenTruncator.truncate self tokens = ([], Err PyInt.ValueError).
Proof.
  intros H. unfold TokenTruncator.truncate.
  rewrite (format_limit_raises _ H).
  pose proof str_limit_pos. pose proof (len_nonneg tokens).
  destruct (Z.gtb_spec (len tokens) (TokenTruncator.token_limit self));
    [reflexivity | lia].
Qed.

Lemma truncate_returns (self : TokenTruncator.t) (tokens : list Z) :
  - PyInt.str_limit < TokenTruncator.token_limit self ->
  returns (TokenTruncator.truncate self tokens)
    (if len tokens >? TokenTruncator.token_limit self
     then slice_to tokens (TokenTruncator.token_limit self)
     else tokens).
Proof.
  intros H. unfold returns. rewrite (truncate_ok _ _ H).
  now destruct (len tokens >? TokenTruncator.token_limit self).
Qed.

Lemma truncate_returns_inv (self : TokenTruncator.t) (tokens t : list Z) :
  returns (TokenTruncator.truncate self tokens) t ->
  - PyInt.str_limit < TokenTruncator.token_limit self /\
  t = if len tokens >? TokenTruncator.token_limit self
      then slice_to tokens (TokenTruncator.token_limit self)
      else tokens.
Proof.
  intros Ht.
  destruct (Z.le_gt_cases (TokenTruncator.token_limit self)
              (- PyInt.str_limit)) as [Hle | Hgt].
  - unfold returns in Ht. rewrite (truncate_too_negative _ _ Hle) in Ht.
    discriminate Ht.
  - split; [exact Hgt|].
    unfold returns in Ht. rewrite (truncate_ok _ _ Hgt) in Ht.
    destruct (len tokens >? TokenTruncator.token_limit self);
      now injection Ht.
Qed.

Lemma returns_inj {A} (m : M A) (a b : A) : returns m a -> returns m b -> a = b.
Proof. unfold returns. intros Ha Hb. rewrite Ha in Hb. now injection Hb. Qed.

Lemma returns_not_raises {A} (m : M A) (a : A) (e : exn) :
  returns m a -> ~ raises m e.
Proof. unfold returns, raises. intros Ha He. rewrite Ha in He. discriminate. Qed.

Lemma truncate_nonneg (limit : Z) (tokens : list Z) :
  0 <= limit ->
  returns (TokenTruncator.truncate (TokenTruncator.mk limit) tokens)
    (firstn (Z.to_nat limit) tokens).
Proof.
  intros Hl. pose proof str_limit_pos as Hpos.
  assert (Hconv : - PyInt.str_limit <
                  TokenTruncator.token_limit (TokenTruncator.mk limit))
    by (cbn [TokenTruncator.token_limit]; lia).
  pose proof (truncate_returns (TokenTruncator.mk limit) tokens Hconv) as H.
  cbn [TokenTruncator.token_limit] in H.
  destruct (Z.gtb_spec (len tokens) limit) as [Hgt | Hle].
  - now rewrite slice_to_nonneg in H.
  - rewrite firstn_all2; [assumption | unfold len in Hle; lia].
Qed.

(** ** The orchestrator *)

Section Pipeline.

Variable svc : TokenService.t.

Abbreviation limit := (TokenTruncator.token_limit (TokenService.truncator svc)).
Abbreviation codec := (TokenEncoder.encoding (TokenService.encoder svc)).

(** The outcome of [process_prompt] in one equation: the codec's error if it
    raises, the truncator's error if it raises, and otherwise the five
    fields. *)
Lemma process_prompt_outcome (prompt : str) :
  outcome (TokenService.process_prompt svc prompt) =
  match tiktoken.encode codec (strip prompt) with
  | Ok tokens =>
      match
        outcome (TokenTruncator.truncate (TokenService.truncator svc) tokens)
      with
      | Ok truncated =>
          Ok (TokenService.mkResult (strip prompt) tokens (len tokens)
                truncated (len truncated))
      | Err e => Err e
      end
  | Err e => Err e
  end.
Proof.
  unfold TokenService.process_prompt, TokenEncoder.encode,
    TokenOptimizer.optimize_prompt, TokenCounter.get_token_count.
  run_py.
  destruct (tiktoken.encode _ (strip prompt)) as [tokens | e];
    [| reflexivity].
  now destruct (TokenTruncator.truncate (TokenService.truncator svc) tokens)
    as [l [truncated | e]].
Qed.

(** A failure of the codec is the failure of the whole call. *)
Lemma process_prompt_raises (prompt : str) (e : exn) :
  raises (TokenEncoder.encode (TokenService.encoder svc) (strip prompt)) e ->
  raises (TokenService.process_prompt svc prompt) e.
Proof.
  unfold raises. rewrite encode_outcome, process_prompt_outcome.
  now intros ->.
Qed.

Lemma process_prompt_returns (prompt : str) (tokens : list Z) :
  - PyInt.str_limit < limit ->
  returns (TokenEncoder.encode (TokenService.encoder svc) (strip prompt))
    tokens ->
  returns (TokenService.process_prompt svc prompt)
    (let truncated :=
       if len tokens >? limit then slice_to tokens limit else tokens in
     TokenService.mkResult (strip prompt) tokens (len tokens)
       truncated (len truncated)).
Proof.
  intros Hconv. unfold returns.
  rewrite encode_outcome, process_prompt_outcome.
  intros ->.
  pose proof (truncate_returns (TokenService.truncator svc) tokens Hconv) as Ht.
  unfold returns in Ht. now rewrite Ht.
Qed.

(** A returned result is the five fields, and the limit could be
    converted. *)
Lemma process_prompt_returns_inv
  (prompt : str) (r : TokenService.ProcessingResult) :
  returns (TokenService.process_prompt svc prompt) r ->
  exists tokens,
    tiktoken.encode codec (strip prompt) = Ok tokens /\
    - PyInt.str_limit < limit /\
    r = (let truncated :=
           if len tokens >? limit then slice_to tokens limit else tokens in
         TokenService.mkResult (strip prompt) tokens (len tokens)
           truncated (len truncated)).
Proof.
  unfold returns. rewrite process_prompt_outcome.
  destruct (tiktoken.encode codec (strip prompt)) as [tokens | e];
    [| discriminate].
  destruct (outcome (TokenTruncator.truncate (TokenService.truncator svc)
                       tokens)) as [truncated | e] eqn:Ht; [| discriminate].
  intros [= <-]. exists tokens.
  destruct (truncate_returns_inv _ _ _ Ht) as [Hconv ->].
  repeat split. exact Hconv.
Qed.

End Pipeline.

(** * The claims *)

Import TokenService.

(** C1, as the code has it. [process_prompt] is the ordered composition
    normalize, encode, count, truncate, count: whenever the codec encodes
    the normalized prompt and the limit is above [- PyInt.str_limit], the
    call returns a result whose five fields are the values returned by
    [optimize_prompt] on the prompt, by [encode] on the normalized prompt, by
    [get_token_count] on the tokens, by [truncate] on the tokens and by
    [get_token_count] on the truncated tokens; the log records of the call
    are those of the five steps in that order, with the two count reports
    after the first and the second count. *)
Theorem process_prompt_composition
  (svc : TokenService.t) (p normalized : str) (tokens : list Z) :
  - PyInt.str_limit < TokenTruncator.token_limit (truncator svc) ->
  returns (TokenOptimizer.optimize_prompt (optimizer svc) p) normalized ->
  returns (TokenEncoder.encode (encoder svc) normalized) tokens ->
  exists r,
    returns (process_prompt svc p) r /\
    returns (TokenOptimizer.optimize_prompt (optimizer svc) p)
      (optimized_prompt r) /\
    returns (TokenEncoder.encode (encoder svc) (optimized_prompt r))
      (encoded_tokens r) /\
    returns (TokenCounter.get_token_count (counter svc) (encoded_tokens r))
      (token_count_before r) /\
    returns (TokenTruncator.truncate (truncator svc) (encoded_tokens r))
      (truncated_tokens r) /\
    returns (TokenCounter.get_token_count (counter svc) (truncated_tokens r))
      (token_count_after r) /\
    emitted (process_prompt svc p) =
      emitted (TokenOptimizer.optimize_prompt (optimizer svc) p) ++
      emitted (TokenEncoder.encode (encoder svc) (optimized_prompt r)) ++
      emitted (TokenCounter.get_token_count (counter svc) (encoded_tokens r)) ++
      [mkLog INFO "Tokens before truncation: " (AInt (token_count_before r))] ++
      emitted (TokenTruncator.truncate (truncator svc) (encoded_tokens r)) ++
      emitted
        (TokenCounter.get_token_count (counter svc) (truncated_tokens r)) ++
      [mkLog INFO "Tokens after truncation: " (AInt (token_count_after r))].
Proof.
  intros Hconv Hn Henc.
  apply (returns_inj _ _ _ (optimize_prompt_returns _ p)) in Hn.
  subst normalized.
  eexists. split; [apply (process_prompt_returns svc p tokens Hconv Henc)|].
  cbn [optimized_prompt encoded_tokens token_count_before truncated_tokens
       token_count_after].
  repeat split;
    try first [ apply optimize_prompt_returns | exact Henc
              | apply get_token_count_returns
              | apply (truncate_returns _ _ Hconv) ].
  unfold returns in Henc. rewrite encode_outcome in Henc.
  unfold process_prompt, TokenEncoder.encode, TokenOptimizer.optimize_prompt,
    TokenCounter.get_token_count.
  run_py. rewrite Henc. cbv beta iota zeta.
  rewrite (truncate_ok _ _ Hconv).
  destruct (len tokens >? _); reflexivity.
Qed.

Lemma process_prompt_composition_witness :
  exists r,
    returns (process_prompt (Sample.service 3) (of_string "  hello ")) r /\
    optimized_prompt r = of_string "hello" /\
    encoded_tokens r = [104; 101; 108; 108; 111] /\
    token_count_before r = 5 /\
    truncated_tokens r = [104; 101; 108] /\
    token_count_after r = 3.
Proof.
  assert (Hconv : - PyInt.str_limit <
                  TokenTruncator.token_limit (truncator (Sample.service 3)))
    by reflexivity.
  destruct (process_prompt_composition (Sample.service 3)
              (of_string "  hello ") (of_string "hello")
              [104; 101; 108; 108; 111] Hconv eq_refl eq_refl)
    as (r & Hr & _).
  exists r. split; [exact Hr|].
  injection Hr as <-. repeat split.
Defined.

(** C1, as stated, fails: with a codec that raises on the prompt, the call
    raises and returns no result. *)
Lemma process_prompt_no_result :
  raises
    (process_prompt
       (TokenService.mk TokenOptimizer.new (TokenEncoder.mk Sample.guarded)
          TokenCounter.new (TokenTruncator.mk 100))
       (of_string "<|endoftext|>"))
    (mkExn "ValueError" "disallowed special token" true) /\
  ~ (exists r,
       returns
         (process_prompt
            (TokenService.mk TokenOptimizer.new (TokenEncoder.mk Sample.guarded)
               TokenCounter.new (TokenTruncator.mk 100))
            (of_string "<|endoftext|>")) r).
Proof.
  split; [reflexivity|].
  intros [r Hr]. discriminate Hr.
Qed.

(** C2. With a limit that is not negative, whenever the codec encodes the
    normalized prompt the call returns a result with
    [token_count_after = len truncated_tokens],
    [token_count_after <= min token_count_before limit], and
    [truncated_tokens] a prefix of [encoded_tokens]. *)
Theorem process_prompt_invariant
  (svc : TokenService.t) (p : str) (tokens : list Z) :
  0 <= TokenTruncator.token_limit (truncator svc) ->
  returns (TokenEncoder.encode (encoder svc) (strip p)) tokens ->
  exists r,
    returns (process_prompt svc p) r /\
    token_count_after r = len (truncated_tokens r) /\
    token_count_after r <=
      Z.min (token_count_before r) (TokenTruncator.token_limit (truncator svc)) /\
    Prefix (truncated_tokens r) (encoded_tokens r).
Proof.
  intros Hlimit Henc. pose proof str_limit_pos as Hpos.
  assert (Hconv : - PyInt.str_limit <
                  TokenTruncator.token_limit (truncator svc)) by lia.
  eexists. split; [apply (process_prompt_returns svc p tokens Hconv Henc)|].
  cbn [optimized_prompt encoded_tokens token_count_before truncated_tokens
       token_count_after].
  split; [reflexivity|].
  destruct (Z.gtb_spec (len tokens) (TokenTruncator.token_limit (truncator svc)))
    as [Hgt | Hle].
  - split; [| apply slice_to_Prefix].
    rewrite slice_to_nonneg, len_firstn by assumption. lia.
  - split; [lia | apply Prefix_refl].
Qed.

Lemma process_prompt_invariant_witness :
  exists r,
    returns (process_prompt (Sample.service 2) (of_string " abc ")) r /\
    token_count_after r = len (truncated_tokens r) /\
    token_count_after r <= Z.min (token_count_before r) 2 /\
    Prefix (truncated_tokens r) (encoded_tokens r).
Proof.
  apply (process_prompt_invariant (Sample.service 2) (of_string " abc ")
           [97; 98; 99]).
  - simpl. lia.
  - reflexivity.
Defined.

(** C3. For every token list [s] and every limit [L >= 0], [truncate] returns
    a list of length [min (len s) L] that is a prefix of [s], namely its
    first [L] elements. *)
Theorem truncate_length_prefix (s : list Z) (L : Z) :
  0 <= L ->
  exists t,
    returns (TokenTruncator.truncate (TokenTruncator.mk L) s) t /\
    len t = Z.min (len s) L /\
    Prefix t s /\
    t = firstn (Z.to_nat L) s.
Proof.
  intros HL. exists (firstn (Z.to_nat L) s).
  split; [now apply truncate_nonneg|].
  split; [rewrite len_firstn; lia|].
  split; [apply firstn_Prefix | reflexivity].
Qed.

Lemma truncate_length_prefix_witness :
  exists t,
    returns (TokenTruncator.truncate (TokenTruncator.mk 2) [10; 20; 30]) t /\
    len t = Z.min (len [10; 20; 30]) 2 /\
    Prefix t [10; 20; 30] /\
    t = firstn (Z.to_nat 2) [10; 20; 30].
Proof. apply (truncate_length_prefix [10; 20; 30] 2). lia. Defined.

(** C6. When [len s <= L], [truncate] returns [s] itself. *)
Theorem truncate_within_limit (s : list Z) (L : Z) :
  len s <= L ->
  returns (TokenTruncator.truncate (TokenTruncator.mk L) s) s.
Proof.
  intros Hle. unfold returns, TokenTruncator.truncate.
  cbn [TokenTruncator.token_limit].
  destruct (Z.gtb_spec (len s) L) as [Hgt | _]; [lia | reflexivity].
Qed.

Lemma truncate_within_limit_witness :
  returns (TokenTruncator.truncate (TokenTruncator.mk 3) [10; 20; 30])
    [10; 20; 30].
Proof.
  apply (truncate_within_limit [10; 20; 30] 3).
  unfold len. simpl List.length. lia.
Defined.

(** C10, as the code has it. With a negative limit [-k] above
    [- PyInt.str_limit], [truncate] does not raise: it returns the first
    [max 0 (len s - k)] elements of [s], dropping the last
    [min k (len s)]. *)
Theorem truncate_negative_limit (s : list Z) (k : Z) :
  0 < k -> k < PyInt.str_limit ->
  exists t dropped,
    returns (TokenTruncator.truncate (TokenTruncator.mk (- k)) s) t /\
    t = firstn (Z.to_nat (Z.max 0 (len s - k))) s /\
    s = t ++ dropped /\
    len dropped = Z.min k (len s).
Proof.
  intros Hk Hconv.
  set (n := Z.to_nat (Z.max 0 (len s - k))).
  exists (firstn n s), (skipn n s).
  split; [| split; [reflexivity | split]].
  - assert (Hc : - PyInt.str_limit <
                 TokenTruncator.token_limit (TokenTruncator.mk (- k)))
      by (cbn [TokenTruncator.token_limit]; lia).
    pose proof (truncate_returns (TokenTruncator.mk (- k)) s Hc) as H.
    cbn [TokenTruncator.token_limit] in H.
    pose proof (len_nonneg s) as Hs.
    destruct (Z.gtb_spec (len s) (- k)) as [_ | Hle]; [| lia].
    rewrite slice_to_negative in H by lia.
    exact H.
  - symmetry. apply firstn_skipn.
  - unfold len. rewrite length_skipn. subst n. unfold len. lia.
Qed.

Lemma truncate_negative_limit_witness :
  exists t dropped,
    returns (TokenTruncator.truncate (TokenTruncator.mk (- 2)) [10; 20; 30]) t /\
    t = firstn (Z.to_nat (Z.max 0 (len [10; 20; 30] - 2))) [10; 20; 30] /\
    [10; 20; 30] = t ++ dropped /\
    len dropped = Z.min 2 (len [10; 20; 30]).
Proof.
  apply (truncate_negative_limit [10; 20; 30] 2); [lia | reflexivity].
Defined.

(** C10, as stated, fails: with the limit [- 10 ^ 4300] the message of the
    record cannot be built and [truncate] raises ValueError. *)
Lemma truncate_huge_negative_raises :
  0 < 10 ^ 4300 /\
  raises (TokenTruncator.truncate (TokenTruncator.mk (- 10 ^ 4300)) [10; 20; 30])
    PyInt.ValueError /\
  ~ (exists t,
       returns
         (TokenTruncator.truncate (TokenTruncator.mk (- 10 ^ 4300)) [10; 20; 30])
         t).
Proof.
  assert (Hle : TokenTruncator.token_limit (TokenTruncator.mk (- 10 ^ 4300)) <=
                - PyInt.str_limit).
  { cbn [TokenTruncator.token_limit].
    unfold PyInt.str_limit, PyInt.int_max_str_digits. apply Z.le_refl. }
  pose proof (truncate_too_negative _ [10; 20; 30] Hle) as Hrun.
  split; [apply Z.pow_pos_nonneg; [reflexivity | discriminate]|].
  unfold raises, returns. rewrite Hrun. split; [reflexivity|].
  intros [t Ht]. discriminate Ht.
Qed.

(** ** Construction *)

Lemma encoder_init_recognized
  (reg : tiktoken.Registry) (model : str) (enc : tiktoken.Encoding) :
  tiktoken.encoding_for_model reg model = Ok enc ->
  TokenEncoder.__init__ reg model =
  ([mkLog INFO "Initialized encoding for model: " (AStr model)],
   Ok (TokenEncoder.mk enc)).
Proof.
  intros H. unfold TokenEncoder.__init__. run_py. now rewrite H.
Qed.

(** When the lookup by model raises an [Exception], the handler logs it at
    level ERROR and the outcome is that of looking up the fallback
    vocabulary. *)
Lemma encoder_init_unrecognized
  (reg : tiktoken.Registry) (model : str) (e : exn) :
  tiktoken.encoding_for_model reg model = Err e ->
  is_Exception e = true ->
  TokenEncoder.__init__ reg model =
  ([mkLog ERROR "Failed to initialize tiktoken encoding: " (AExn e)],
   match tiktoken.get_encoding reg TokenEncoder.fallback_encoding with
   | Ok dflt => Ok (TokenEncoder.mk dflt)
   | Err e' => Err e'
   end).
Proof.
  intros H He. unfold TokenEncoder.__init__. run_py. rewrite H, He.
  now destruct (tiktoken.get_encoding reg TokenEncoder.fallback_encoding).
Qed.

(** An exception that is not an [Exception] passes the handler: nothing is
    logged and the fallback is not looked up. *)
Lemma encoder_init_uncaught
  (reg : tiktoken.Registry) (model : str) (e : exn) :
  tiktoken.encoding_for_model reg model = Err e ->
  is_Exception e = false ->
  TokenEncoder.__init__ reg model = ([], Err e).
Proof.
  intros H He. unfold TokenEncoder.__init__. run_py. now rewrite H, He.
Qed.

Lemma service_init_outcome
  (reg : tiktoken.Registry) (model : str) (token_limit : Z) :
  outcome (TokenService.__init__ reg model token_limit) =
  match outcome (TokenEncoder.__init__ reg model) with
  | Ok enc =>
      Ok (TokenService.mk TokenOptimizer.new enc TokenCounter.new
            (TokenTruncator.mk token_limit))
  | Err e => Err e
  end.
Proof.
  unfold TokenService.__init__, TokenTruncator.__init__. run_py.
  destruct (TokenEncoder.__init__ reg model) as [l [enc | e]]; reflexivity.
Qed.

(** C4, as the code has it. A negative limit is not rejected: the truncator
    stores it as given, and the service is constructed with it whenever the
    encoder is, so that construction raises only what the construction of
    the encoder raises. *)
Theorem negative_limit_stored
  (reg : tiktoken.Registry) (model : str) (L : Z) :
  L < 0 ->
  returns (TokenTruncator.__init__ L) (TokenTruncator.mk L) /\
  (forall enc,
     returns (TokenEncoder.__init__ reg model) enc ->
     returns (TokenService.__init__ reg model L)
       (TokenService.mk TokenOptimizer.new enc TokenCounter.new
          (TokenTruncator.mk L))) /\
  (forall e,
     raises (TokenService.__init__ reg model L) e ->
     raises (TokenEncoder.__init__ reg model) e).
Proof.
  intros _. split; [reflexivity|].
  unfold returns, raises. rewrite service_init_outcome.
  split.
  - now intros enc ->.
  - intros e.
    destruct (outcome (TokenEncoder.__init__ reg model)) as [enc | e'];
      [discriminate | now intros [= ->]].
Qed.

Lemma negative_limit_stored_witness :
  returns (TokenService.__init__ Sample.registry (of_string "gpt-4") (- 1))
    (Sample.service (- 1)).
Proof.
  assert (Hneg : - 1 < 0) by lia.
  apply (proj1 (proj2 (negative_limit_stored Sample.registry
                         (of_string "gpt-4") (- 1) Hneg))).
  reflexivity.
Defined.

(** C4, as stated, fails: constructing the truncator or the service with
    the limit -1 raises nothing, and the service then accepts a call. *)
Lemma negative_limit_not_rejected :
  ~ (exists e, raises (TokenTruncator.__init__ (- 1)) e) /\
  ~ (exists e,
       raises
         (TokenService.__init__ Sample.registry (of_string "gpt-4") (- 1)) e) /\
  exists svc r,
    returns (TokenService.__init__ Sample.registry (of_string "gpt-4") (- 1))
      svc /\
    returns (process_prompt svc (of_string "hello")) r /\
    truncated_tokens r = [104; 101; 108; 108].
Proof.
  split; [intros [e He]; discriminate He|].
  split; [intros [e He]; discriminate He|].
  eexists. eexists. split; [reflexivity|]. split; reflexivity.
Qed.

(** C5, as the code has it. When the registry holds the fallback vocabulary
    cl100k_base and the lookup by model name either returns or raises an
    [Exception], the construction of the encoder returns: with the encoding
    of the model when the registry recognises the name, with the fallback
    vocabulary when the lookup raises; it raises nothing. *)
Theorem encoder_init_total
  (reg : tiktoken.Registry) (dflt : tiktoken.Encoding) (model : str) :
  tiktoken.get_encoding reg TokenEncoder.fallback_encoding = Ok dflt ->
  (forall e,
     tiktoken.encoding_for_model reg model = Err e -> is_Exception e = true) ->
  (exists enc, returns (TokenEncoder.__init__ reg model) enc) /\
  (forall enc,
     tiktoken.encoding_for_model reg model = Ok enc ->
     returns (TokenEncoder.__init__ reg model) (TokenEncoder.mk enc)) /\
  (forall e,
     tiktoken.encoding_for_model reg model = Err e ->
     returns (TokenEncoder.__init__ reg model) (TokenEncoder.mk dflt)) /\
  (forall e, ~ raises (TokenEncoder.__init__ reg model) e).
Proof.
  intros Hdflt Hexc.
  assert (Hok : forall enc,
             tiktoken.encoding_for_model reg model = Ok enc ->
             returns (TokenEncoder.__init__ reg model) (TokenEncoder.mk enc)).
  { intros enc H. unfold returns. now rewrite (encoder_init_recognized _ _ _ H). }
  assert (Hfb : forall e,
             tiktoken.encoding_for_model reg model = Err e ->
             returns (TokenEncoder.__init__ reg model) (TokenEncoder.mk dflt)).
  { intros e H. unfold returns.
    now rewrite (encoder_init_unrecognized _ _ _ H (Hexc e H)), Hdflt. }
  assert (Hex : exists enc, returns (TokenEncoder.__init__ reg model) enc).
  { destruct (tiktoken.encoding_for_model reg model) as [enc | e] eqn:E;
      eauto. }
  repeat split; try assumption.
  intros e. destruct Hex as [enc Henc].
  now apply returns_not_raises with (a := enc).
Qed.

Lemma encoder_init_total_witness :
  returns (TokenEncoder.__init__ Sample.registry (of_string "no-such-model"))
    (TokenEncoder.mk Sample.codepoints).
Proof.
  assert (Hexc : forall e,
             tiktoken.encoding_for_model Sample.registry
               (of_string "no-such-model") = Err e ->
             is_Exception e = true).
  { intros e H. injection H as <-. reflexivity. }
  apply (proj1 (proj2 (proj2
           (encoder_init_total Sample.registry Sample.codepoints
              (of_string "no-such-model") eq_refl Hexc)))
           (mkExn "KeyError" "could not map the model to a tokeniser" true)).
  reflexivity.
Defined.

(** C5, as stated, fails: with a registry that recognises no model and
    cannot supply the fallback vocabulary, the construction of the encoder
    raises the exception of the fallback lookup and returns no encoder. *)
Lemma encoder_init_not_total :
  raises (TokenEncoder.__init__ Sample.offline (of_string "no-such-model"))
    (mkExn "ConnectionError" "vocabulary file unavailable" true) /\
  ~ (exists enc,
       returns
         (TokenEncoder.__init__ Sample.offline (of_string "no-such-model"))
         enc).
Proof.
  split; [reflexivity|].
  intros [enc Henc]. discriminate Henc.
Qed.

(** C7. The normalizer is idempotent, and it only strips whitespace at the
    two ends: the prompt is the returned text between two runs of
    whitespace, and the returned text neither starts nor ends with
    whitespace. *)
Theorem optimize_prompt_idempotent_strip (self : TokenOptimizer.t) (t : str) :
  exists n pre suf,
    returns (TokenOptimizer.optimize_prompt self t) n /\
    returns (TokenOptimizer.optimize_prompt self n) n /\
    t = pre ++ n ++ suf /\
    all_space pre /\ all_space suf /\
    trimmed n.
Proof.
  destruct (strip_split t) as (pre & suf & Ht & Hpre & Hsuf).
  exists (strip t), pre, suf.
  split; [apply optimize_prompt_returns|].
  split.
  - unfold returns. cbn. now rewrite strip_idempotent.
  - repeat split; try assumption; apply strip_trimmed.
Qed.

(** C8, as the code has it. With the limit 0, whenever the codec encodes the
    normalized prompt the call returns, with no truncated token and a count
    of 0 after. *)
Theorem process_prompt_limit_zero
  (svc : TokenService.t) (p : str) (tokens : list Z) :
  TokenTruncator.token_limit (truncator svc) = 0 ->
  returns (TokenEncoder.encode (encoder svc) (strip p)) tokens ->
  exists r,
    returns (process_prompt svc p) r /\
    truncated_tokens r = [] /\
    token_count_after r = 0.
Proof.
  intros Hzero Henc. pose proof str_limit_pos as Hpos.
  assert (Hconv : - PyInt.str_limit <
                  TokenTruncator.token_limit (truncator svc)) by lia.
  eexists. split; [apply (process_prompt_returns svc p tokens Hconv Henc)|].
  cbn [truncated_tokens token_count_after]. rewrite Hzero.
  destruct (Z.gtb_spec (len tokens) 0) as [Hgt | Hle].
  - rewrite slice_to_nonneg by lia. split; reflexivity.
  - pose proof (len_nonneg tokens).
    assert (Hnil : tokens = []) by (apply len_nil_inv; lia).
    subst tokens. split; reflexivity.
Qed.

Lemma process_prompt_limit_zero_witness :
  exists r,
    returns (process_prompt (Sample.service 0) (of_string "hello world")) r /\
    truncated_tokens r = [] /\
    token_count_after r = 0.
Proof.
  apply (process_prompt_limit_zero (Sample.service 0) (of_string "hello world")
           (map Z.of_N (of_string "hello world")));
    reflexivity.
Defined.

(** C8, as stated, fails: with the limit 0 and a codec that raises on the
    prompt, the call raises and returns no result. *)
Lemma limit_zero_codec_raises :
  raises
    (process_prompt
       (TokenService.mk TokenOptimizer.new (TokenEncoder.mk Sample.guarded)
          TokenCounter.new (TokenTruncator.mk 0))
       (of_string "<|endoftext|>"))
    (mkExn "ValueError" "disallowed special token" true) /\
  ~ (exists r,
       returns
         (process_prompt
            (TokenService.mk TokenOptimizer.new (TokenEncoder.mk Sample.guarded)
               TokenCounter.new (TokenTruncator.mk 0))
            (of_string "<|endoftext|>")) r).
Proof.
  split; [reflexivity|].
  intros [r Hr]. discriminate Hr.
Qed.

(** C9. For the empty prompt and a limit that is not negative, when the
    codec encodes the empty text as the empty list the call returns, with
    both counts 0. *)
Theorem process_prompt_empty (svc : TokenService.t) :
  0 <= TokenTruncator.token_limit (truncator svc) ->
  tiktoken.encode (TokenEncoder.encoding (encoder svc)) [] = Ok [] ->
  exists r,
    returns (process_prompt svc []) r /\
    token_count_before r = 0 /\
    token_count_after r = 0.
Proof.
  intros Hlimit Hcodec.
  assert (Henc : returns (TokenEncoder.encode (encoder svc) (strip [])) []).
  { unfold returns. now rewrite encode_outcome. }
  pose proof str_limit_pos as Hpos.
  assert (Hconv : - PyInt.str_limit <
                  TokenTruncator.token_limit (truncator svc)) by lia.
  eexists. split; [apply (process_prompt_returns svc [] [] Hconv Henc)|].
  cbn [token_count_before token_count_after].
  destruct (Z.gtb_spec (len (@nil Z)) (TokenTruncator.token_limit (truncator svc)))
    as [Hgt | _].
  - change (len (@nil Z)) with 0 in Hgt. lia.
  - split; reflexivity.
Qed.

Lemma process_prompt_empty_witness :
  exists r,
    returns (process_prompt (Sample.service 100) (of_string "")) r /\
    token_count_before r = 0 /\
    token_count_after r = 0.
Proof.
  apply (process_prompt_empty (Sample.service 100)).
  - simpl. lia.
  - reflexivity.
Defined.

(** ** The pipeline at work *)

Example strip_hello :
  strip (of_string "  hello world  ") = of_string "hello world".
Proof. reflexivity. Qed.

Example optimize_prompt_empty :
  returns (TokenOptimizer.optimize_prompt TokenOptimizer.new []) [].
Proof. reflexivity. Qed.

(** A prompt well under the limit is not truncated. *)
Example scenario_no_truncation :
  exists r,
    returns (process_prompt (Sample.service 100) (of_string "  hello world  "))
      r /\
    optimized_prompt r = of_string "hello world" /\
    token_count_after r = token_count_before r.
Proof. eexists. split; [reflexivity|]. split; reflexivity. Qed.

(** The fallback is reported at level ERROR. *)
Example fallback_logged :
  emitted (TokenEncoder.__init__ Sample.registry (of_string "no-such-model")) =
  [mkLog ERROR "Failed to initialize tiktoken encoding: "
     (AExn (mkExn "KeyError" "could not map the model to a tokeniser" true))].
Proof. reflexivity. Qed.

(** An interruption during the lookup by model is not handled: it leaves the
    constructor, with no record and no fallback. *)
Example interrupt_not_caught :
  TokenEncoder.__init__ Sample.interrupted (of_string "gpt-4") =
  ([], Err (mkExn "KeyboardInterrupt" "interrupted" false)).
Proof. reflexivity. Qed.

(** * Further properties of the code *)

(** ** More on whitespace stripping *)

Section StripMore.

Lemma lstrip_spaces (s : str) : all_space s -> lstrip s = [].
Proof.
  induction 1 as [|c s Hc _ IH]; [reflexivity|].
  simpl. now rewrite Hc.
Qed.

Lemma rstrip_spaces (s : str) : all_space s -> rstrip s = [].
Proof.
  induction 1 as [|c s Hc _ IH]; [reflexivity|].
  now rewrite rstrip_cons, IH, Hc.
Qed.

Lemma lstrip_app_spaces (pre s : str) :
  all_space pre -> lstrip (pre ++ s) = lstrip s.
Proof.
  induction 1 as [|c pre Hc _ IH]; [reflexivity|].
  simpl. now rewrite Hc.
Qed.

Lemma rstrip_app_spaces (s suf : str) :
  all_space suf -> rstrip (s ++ suf) = rstrip s.
Proof.
  intros Hsuf. induction s as [|c s IH].
  - now apply rstrip_spaces.
  - rewrite <- app_comm_cons, !rstrip_cons. now rewrite IH.
Qed.

(** Appending to a text that is not all whitespace leaves its left strip
    in front. *)
Lemma lstrip_app_nonempty (s suf : str) :
  lstrip s <> [] -> lstrip (s ++ suf) = lstrip s ++ suf.
Proof.
  induction s as [|c s IH]; simpl; intros Hne.
  - now contradiction Hne.
  - destruct (isspace c); [now apply IH | reflexivity].
Qed.

Lemma lstrip_nil_spaces (s : str) : lstrip s = [] -> all_space s.
Proof.
  intros H. destruct (lstrip_split s) as (pre & Hs & Hpre).
  rewrite H, app_nil_r in Hs. now subst.
Qed.

Lemma strip_surrounded (pre s suf : str) :
  all_space pre -> all_space suf -> strip (pre ++ s ++ suf) = strip s.
Proof.
  intros Hpre Hsuf. unfold strip.
  rewrite (lstrip_app_spaces pre _ Hpre).
  destruct (lstrip s) as [|c r] eqn:E.
  - assert (Hall : all_space (s ++ suf)).
    { apply Forall_app. split; [now apply lstrip_nil_spaces | assumption]. }
    now rewrite (lstrip_spaces _ Hall).
  - rewrite lstrip_app_nonempty by (rewrite E; discriminate).
    rewrite E. now apply rstrip_app_spaces.
Qed.

Lemma strip_nil_iff (s : str) : strip s = [] <-> all_space s.
Proof.
  split.
  - intros H. destruct (strip_split s) as (pre & suf & Hs & Hpre & Hsuf).
    rewrite H in Hs. subst s. apply Forall_app. now split.
  - intros H. unfold strip. now rewrite (lstrip_spaces s H).
Qed.

Lemma strip_fixed_iff (s : str) : strip s = s <-> trimmed s.
Proof.
  split.
  - intros H. rewrite <- H. apply strip_trimmed.
  - apply strip_of_trimmed.
Qed.

Lemma len_strip_le (s : str) : len (strip s) <= len s.
Proof.
  destruct (strip_split s) as (pre & suf & Hs & _).
  rewrite Hs at 2. rewrite !len_app.
  pose proof (len_nonneg pre). pose proof (len_nonneg suf). lia.
Qed.

End StripMore.

(** X1. The normalizer returns the empty text exactly for the prompts that
    consist of whitespace only (the empty prompt among them). *)
Theorem optimize_prompt_empty_iff (self : TokenOptimizer.t) (p : str) :
  returns (TokenOptimizer.optimize_prompt self p) [] <-> all_space p.
Proof.
  rewrite <- strip_nil_iff. split.
  - intros H. now apply (returns_inj _ _ _ (optimize_prompt_returns self p)).
  - intros H. unfold returns. cbn. now rewrite H.
Qed.

(** X2. The normalizer returns the prompt as it is exactly when the prompt
    has no whitespace at its start and none at its end; the returned text is
    never longer than the prompt. *)
Theorem optimize_prompt_unchanged_iff (self : TokenOptimizer.t) (p : str) :
  (returns (TokenOptimizer.optimize_prompt self p) p <-> trimmed p) /\
  (forall n, returns (TokenOptimizer.optimize_prompt self p) n -> len n <= len p).
Proof.
  split.
  - rewrite <- strip_fixed_iff. split.
    + intros H.
      now apply (returns_inj _ _ _ (optimize_prompt_returns self p)).
    + intros H. unfold returns. cbn. now rewrite H.
  - intros n Hn.
    apply (returns_inj _ _ _ (optimize_prompt_returns self p)) in Hn.
    subst n. apply len_strip_le.
Qed.

(** X3. Whitespace around a prompt changes nothing: the normalizer returns
    the same text for [pre ++ p ++ suf] as for [p] when [pre] and [suf] are
    whitespace. *)
Theorem optimize_prompt_surrounded
  (self : TokenOptimizer.t) (pre p suf n : str) :
  all_space pre -> all_space suf ->
  returns (TokenOptimizer.optimize_prompt self p) n ->
  returns (TokenOptimizer.optimize_prompt self (pre ++ p ++ suf)) n.
Proof.
  intros Hpre Hsuf Hn.
  apply (returns_inj _ _ _ (optimize_prompt_returns self p)) in Hn.
  subst n. rewrite <- (strip_surrounded pre p suf Hpre Hsuf).
  apply optimize_prompt_returns.
Qed.

Lemma optimize_prompt_surrounded_witness :
  returns
    (TokenOptimizer.optimize_prompt TokenOptimizer.new
       (of_string "  " ++ of_string "a b" ++ [10; 9]%N))
    (of_string "a b").
Proof.
  apply (optimize_prompt_surrounded TokenOptimizer.new
           (of_string "  ") (of_string "a b") [10; 9]%N (of_string "a b")).
  - repeat constructor.
  - repeat constructor.
  - reflexivity.
Defined.

(** ** More on truncation *)

Lemma returns_bind {A B} (m : M A) (f : A -> M B) (a : A) (b : B) :
  returns m a -> returns (f a) b -> returns (bind m f) b.
Proof.
  unfold returns, outcome, bind.
  destruct m as [l r]. cbn [snd]. intros ->.
  destruct (f a) as [l' r']. cbn [snd]. now intros ->.
Qed.

Lemma truncate_emitted (self : TokenTruncator.t) (tokens : list Z) :
  - PyInt.str_limit < TokenTruncator.token_limit self ->
  emitted (TokenTruncator.truncate self tokens) =
  if len tokens >? TokenTruncator.token_limit self
  then [mkLog INFO "Truncated tokens to limit: "
          (AInt (TokenTruncator.token_limit self))]
  else [].
Proof.
  intros H. rewrite (truncate_ok _ _ H).
  now destruct (len tokens >? TokenTruncator.token_limit self).
Qed.

Lemma truncate_negative (k : Z) (tokens : list Z) :
  0 < k -> k < PyInt.str_limit ->
  returns (TokenTruncator.truncate (TokenTruncator.mk (- k)) tokens)
    (firstn (Z.to_nat (Z.max 0 (len tokens - k))) tokens).
Proof.
  intros Hk Hconv.
  assert (Hc : - PyInt.str_limit <
               TokenTruncator.token_limit (TokenTruncator.mk (- k)))
    by (cbn [TokenTruncator.token_limit]; lia).
  pose proof (truncate_returns (TokenTruncator.mk (- k)) tokens Hc) as H.
  cbn [TokenTruncator.token_limit] in H.
  pose proof (len_nonneg tokens) as Hs.
  destruct (Z.gtb_spec (len tokens) (- k)) as [_ | Hle]; [| lia].
  now rewrite slice_to_negative in H by lia.
Qed.

(** X4. Truncating to [L2] and then to [L1] is truncating once to the
    smaller of the two limits (both not negative); with [L1 = L2],
    truncation is idempotent. *)
Theorem truncate_twice (s : list Z) (L1 L2 : Z) :
  0 <= L1 -> 0 <= L2 ->
  exists t,
    returns
      (t2 <- TokenTruncator.truncate (TokenTruncator.mk L2) s ;;
       TokenTruncator.truncate (TokenTruncator.mk L1) t2) t /\
    returns (TokenTruncator.truncate (TokenTruncator.mk (Z.min L1 L2)) s) t.
Proof.
  intros H1 H2. exists (firstn (Z.to_nat (Z.min L1 L2)) s). split.
  - apply returns_bind with (a := firstn (Z.to_nat L2) s).
    + now apply truncate_nonneg.
    + replace (firstn (Z.to_nat (Z.min L1 L2)) s)
        with (firstn (Z.to_nat L1) (firstn (Z.to_nat L2) s)).
      * now apply truncate_nonneg.
      * rewrite firstn_firstn. f_equal. lia.
  - apply truncate_nonneg. lia.
Qed.

Lemma truncate_twice_witness :
  exists t,
    returns
      (t2 <- TokenTruncator.truncate (TokenTruncator.mk 3) [1; 2; 3; 4; 5] ;;
       TokenTruncator.truncate (TokenTruncator.mk 2) t2) t /\
    returns (TokenTruncator.truncate (TokenTruncator.mk (Z.min 2 3))
               [1; 2; 3; 4; 5]) t.
Proof. apply (truncate_twice [1; 2; 3; 4; 5] 2 3); lia. Defined.

(** X5. With a negative limit [-k] above [- PyInt.str_limit] truncation
    is not idempotent: applied twice it drops [k] tokens twice and returns
    the first [max 0 (len s - 2 k)] tokens. *)
Theorem truncate_negative_twice (s : list Z) (k : Z) :
  0 < k -> k < PyInt.str_limit ->
  returns
    (t <- TokenTruncator.truncate (TokenTruncator.mk (- k)) s ;;
     TokenTruncator.truncate (TokenTruncator.mk (- k)) t)
    (firstn (Z.to_nat (Z.max 0 (len s - 2 * k))) s).
Proof.
  intros Hk Hconv.
  apply returns_bind
    with (a := firstn (Z.to_nat (Z.max 0 (len s - k))) s).
  - now apply truncate_negative.
  - pose proof (truncate_negative k
                  (firstn (Z.to_nat (Z.max 0 (len s - k))) s) Hk Hconv) as H.
    rewrite firstn_firstn, len_firstn in H.
    pose proof (len_nonneg s) as Hs.
    replace (Init.Nat.min
               (Z.to_nat
                  (Z.max 0
                     (Z.min (Z.of_nat (Z.to_nat (Z.max 0 (len s - k))))
                        (len s) - k)))
               (Z.to_nat (Z.max 0 (len s - k))))
      with (Z.to_nat (Z.max 0 (len s - 2 * k))) in H by lia.
    exact H.
Qed.

Lemma truncate_negative_twice_witness :
  returns
    (t <- TokenTruncator.truncate (TokenTruncator.mk (- 1)) [1; 2; 3; 4; 5] ;;
     TokenTruncator.truncate (TokenTruncator.mk (- 1)) t)
    [1; 2; 3].
Proof.
  apply (truncate_negative_twice [1; 2; 3; 4; 5] 1); [lia | reflexivity].
Defined.

(** X6. With a limit that is not negative, the record "Truncated tokens to
    limit" is emitted exactly when tokens are dropped: either the returned
    list is shorter than the input and the record is emitted, or the input
    is returned and nothing is emitted. *)
Theorem truncate_logs_iff_shortened (s : list Z) (L : Z) :
  0 <= L ->
  exists t,
    returns (TokenTruncator.truncate (TokenTruncator.mk L) s) t /\
    ((len t < len s /\
      emitted (TokenTruncator.truncate (TokenTruncator.mk L) s) =
        [mkLog INFO "Truncated tokens to limit: " (AInt L)]) \/
     (t = s /\
      emitted (TokenTruncator.truncate (TokenTruncator.mk L) s) = [])).
Proof.
  intros HL. exists (firstn (Z.to_nat L) s).
  split; [now apply truncate_nonneg|].
  pose proof str_limit_pos as Hpos.
  rewrite truncate_emitted by (cbn [TokenTruncator.token_limit]; lia).
  cbn [TokenTruncator.token_limit].
  destruct (Z.gtb_spec (len s) L) as [Hgt | Hle].
  - left. split; [rewrite len_firstn; lia | reflexivity].
  - right. split; [| reflexivity].
    apply firstn_all2. unfold len in Hle. lia.
Qed.

Lemma truncate_logs_iff_shortened_witness :
  exists t,
    returns (TokenTruncator.truncate (TokenTruncator.mk 1) [7; 8]) t /\
    ((len t < len [7; 8] /\
      emitted (TokenTruncator.truncate (TokenTruncator.mk 1) [7; 8]) =
        [mkLog INFO "Truncated tokens to limit: " (AInt 1)]) \/
     (t = [7; 8] /\
      emitted (TokenTruncator.truncate (TokenTruncator.mk 1) [7; 8]) = [])).
Proof. apply (truncate_logs_iff_shortened [7; 8] 1). lia. Defined.

(** X7. The truncated list depends only on the first [L] tokens: tokens
    appended to a list that already has at least [L] tokens do not change
    the result. *)
Theorem truncate_ignores_tail (s extra : list Z) (L : Z) :
  0 <= L -> L <= len s ->
  exists t,
    returns (TokenTruncator.truncate (TokenTruncator.mk L) s) t /\
    returns (TokenTruncator.truncate (TokenTruncator.mk L) (s ++ extra)) t.
Proof.
  intros HL Hlen. exists (firstn (Z.to_nat L) s).
  split; [now apply truncate_nonneg|].
  replace (firstn (Z.to_nat L) s) with (firstn (Z.to_nat L) (s ++ extra)).
  - now apply truncate_nonneg.
  - rewrite firstn_app.
    replace (Z.to_nat L - List.length s)%nat with 0%nat
      by (unfold len in Hlen; lia).
    apply app_nil_r.
Qed.

Lemma truncate_ignores_tail_witness :
  exists t,
    returns (TokenTruncator.truncate (TokenTruncator.mk 2) [1; 2; 3]) t /\
    returns (TokenTruncator.truncate (TokenTruncator.mk 2) ([1; 2; 3] ++ [9]))
      t.
Proof.
  apply (truncate_ignores_tail [1; 2; 3] [9] 2).
  - lia.
  - unfold len. simpl List.length. lia.
Defined.

(** X8. Truncation is monotone in the limit: for [0 <= L1 <= L2] the list
    truncated to [L1] is a prefix of the list truncated to [L2]. *)
Theorem truncate_monotone (s : list Z) (L1 L2 : Z) :
  0 <= L1 -> L1 <= L2 ->
  exists t1 t2,
    returns (TokenTruncator.truncate (TokenTruncator.mk L1) s) t1 /\
    returns (TokenTruncator.truncate (TokenTruncator.mk L2) s) t2 /\
    Prefix t1 t2.
Proof.
  intros H1 H12.
  exists (firstn (Z.to_nat L1) s), (firstn (Z.to_nat L2) s).
  split; [now apply truncate_nonneg|].
  split; [apply truncate_nonneg; lia|].
  replace (firstn (Z.to_nat L1) s)
    with (firstn (Z.to_nat L1) (firstn (Z.to_nat L2) s)).
  - apply firstn_Prefix.
  - rewrite firstn_firstn. f_equal. lia.
Qed.

Lemma truncate_monotone_witness :
  exists t1 t2,
    returns (TokenTruncator.truncate (TokenTruncator.mk 1) [4; 5; 6]) t1 /\
    returns (TokenTruncator.truncate (TokenTruncator.mk 2) [4; 5; 6]) t2 /\
    Prefix t1 t2.
Proof. apply (truncate_monotone [4; 5; 6] 1 2); lia. Defined.

(** ** More on the orchestrator *)

Lemma len_slice_to_le {A} (l : list A) (stop : Z) :
  0 <= len (slice_to l stop) <= len l.
Proof.
  unfold slice_to. rewrite len_firstn.
  pose proof (len_nonneg l). lia.
Qed.

(** The call looks at the prompt through [strip] only. *)
Lemma process_prompt_strip (svc : TokenService.t) (p q : str) :
  strip p = strip q -> process_prompt svc p = process_prompt svc q.
Proof.
  intros H. unfold process_prompt, TokenOptimizer.optimize_prompt.
  cbv zeta. now rewrite H.
Qed.

(** X9. Whitespace before and after the prompt does not change the call:
    the same outcome and the same log records. *)
Theorem process_prompt_surrounded (svc : TokenService.t) (pre p suf : str) :
  all_space pre -> all_space suf ->
  process_prompt svc (pre ++ p ++ suf) = process_prompt svc p.
Proof.
  intros Hpre Hsuf. apply process_prompt_strip.
  now apply strip_surrounded.
Qed.

Lemma process_prompt_surrounded_witness :
  process_prompt (Sample.service 2) (of_string " " ++ of_string "abc" ++ [10]%N)
  = process_prompt (Sample.service 2) (of_string "abc").
Proof.
  apply (process_prompt_surrounded (Sample.service 2)
           (of_string " ") (of_string "abc") [10]%N);
    repeat constructor.
Defined.

(** X10. Processing the normalized prompt of a result again is the same
    call: it returns the same result. *)
Theorem process_prompt_again
  (svc : TokenService.t) (p : str) (r : ProcessingResult) :
  returns (process_prompt svc p) r ->
  process_prompt svc (optimized_prompt r) = process_prompt svc p /\
  returns (process_prompt svc (optimized_prompt r)) r.
Proof.
  intros Hr.
  assert (Hopt : optimized_prompt r = strip p).
  { destruct (process_prompt_returns_inv svc p r Hr) as (tokens & _ & _ & ->).
    reflexivity. }
  assert (Heq : process_prompt svc (optimized_prompt r) = process_prompt svc p).
  { apply process_prompt_strip. rewrite Hopt. apply strip_idempotent. }
  split; [exact Heq | now rewrite Heq].
Qed.

Lemma process_prompt_again_witness :
  returns (process_prompt (Sample.service 2) (of_string "ab"))
    (mkResult (of_string "ab") [97; 98] 2 [97; 98] 2).
Proof.
  apply (proj2 (process_prompt_again (Sample.service 2) (of_string " ab ")
                  (mkResult (of_string "ab") [97; 98] 2 [97; 98] 2) eq_refl)).
Defined.

(** X11. When the codec raises on the normalized prompt, the call raises
    the same exception and the only record emitted is the debug record of
    the normalizer: no count is reported and no result is built. *)
Theorem process_prompt_codec_failure
  (svc : TokenService.t) (p : str) (e : exn) :
  tiktoken.encode (TokenEncoder.encoding (encoder svc)) (strip p) = Err e ->
  process_prompt svc p =
  ([mkLog DEBUG "Optimized Prompt: " (AStr (strip p))], Err e).
Proof.
  intros H.
  unfold process_prompt, TokenEncoder.encode, TokenOptimizer.optimize_prompt.
  run_py. now rewrite H.
Qed.

Lemma process_prompt_codec_failure_witness :
  process_prompt
    (TokenService.mk TokenOptimizer.new (TokenEncoder.mk Sample.broken)
       TokenCounter.new (TokenTruncator.mk 10))
    (of_string " hi ") =
  ([mkLog DEBUG "Optimized Prompt: " (AStr (of_string "hi"))],
   Err (mkExn "ValueError" "cannot tokenize" true)).
Proof.
  apply (process_prompt_codec_failure
           (TokenService.mk TokenOptimizer.new (TokenEncoder.mk Sample.broken)
              TokenCounter.new (TokenTruncator.mk 10))
           (of_string " hi ")).
  reflexivity.
Defined.

(** X12. Under the configured level INFO and a limit that is not negative,
    a successful call shows the count before and the count after, and
    between them the truncation record exactly when the tokens exceed the
    limit; the count after is then the limit.  No debug record is shown. *)
Theorem process_prompt_handled_records
  (svc : TokenService.t) (p : str) (tokens : list Z) :
  0 <= TokenTruncator.token_limit (truncator svc) ->
  tiktoken.encode (TokenEncoder.encoding (encoder svc)) (strip p) = Ok tokens ->
  (len tokens <= TokenTruncator.token_limit (truncator svc) ->
   Logging.handled (emitted (process_prompt svc p)) =
   [mkLog INFO "Tokens before truncation: " (AInt (len tokens));
    mkLog INFO "Tokens after truncation: " (AInt (len tokens))]) /\
  (TokenTruncator.token_limit (truncator svc) < len tokens ->
   Logging.handled (emitted (process_prompt svc p)) =
   [mkLog INFO "Tokens before truncation: " (AInt (len tokens));
    mkLog INFO "Truncated tokens to limit: "
      (AInt (TokenTruncator.token_limit (truncator svc)));
    mkLog INFO "Tokens after truncation: "
      (AInt (TokenTruncator.token_limit (truncator svc)))]).
Proof.
  intros Hlimit Henc. pose proof str_limit_pos as Hpos.
  assert (Hconv : - PyInt.str_limit <
                  TokenTruncator.token_limit (truncator svc)) by lia.
  unfold process_prompt, TokenEncoder.encode, TokenOptimizer.optimize_prompt,
    TokenCounter.get_token_count.
  run_py. rewrite Henc. cbv beta iota zeta.
  rewrite (truncate_ok _ _ Hconv).
  destruct (Z.gtb_spec (len tokens) (TokenTruncator.token_limit (truncator svc)))
    as [Hgt | Hle].
  - split; [lia|]. intros _.
    rewrite slice_to_nonneg, len_firstn by assumption.
    rewrite Z2Nat.id, Z.min_l by lia. reflexivity.
  - split; [reflexivity | lia].
Qed.

Lemma process_prompt_handled_records_witness :
  Logging.handled
    (emitted (process_prompt (Sample.service 2) (of_string "abc"))) =
  [mkLog INFO "Tokens before truncation: " (AInt 3);
   mkLog INFO "Truncated tokens to limit: " (AInt 2);
   mkLog INFO "Tokens after truncation: " (AInt 2)].
Proof.
  assert (Hlimit : 0 <= TokenTruncator.token_limit
                          (truncator (Sample.service 2))) by (simpl; lia).
  apply (proj2 (process_prompt_handled_records (Sample.service 2)
                  (of_string "abc") [97; 98; 99] Hlimit eq_refl)).
  unfold len. simpl. lia.
Defined.

(** X13. Whatever the limit, negative ones included, a returned result has
    [0 <= token_count_after <= token_count_before], the count after is the
    length of [truncated_tokens], and [truncated_tokens] is a prefix of
    [encoded_tokens]: the call never adds or reorders tokens. *)
Theorem process_prompt_never_grows
  (svc : TokenService.t) (p : str) (r : ProcessingResult) :
  returns (process_prompt svc p) r ->
  0 <= token_count_after r <= token_count_before r /\
  token_count_before r = len (encoded_tokens r) /\
  token_count_after r = len (truncated_tokens r) /\
  Prefix (truncated_tokens r) (encoded_tokens r).
Proof.
  intros Hr.
  destruct (process_prompt_returns_inv svc p r Hr) as (tokens & _ & _ & ->).
  cbn [token_count_after token_count_before truncated_tokens encoded_tokens].
  destruct (len tokens >? _).
  - pose proof (len_slice_to_le tokens
                  (TokenTruncator.token_limit (truncator svc))).
    repeat split; try lia. apply slice_to_Prefix.
  - pose proof (len_nonneg tokens).
    repeat split; try lia. apply Prefix_refl.
Qed.

Lemma process_prompt_never_grows_witness :
  0 <= 1 <= 3 /\ 3 = len [97; 98; 99] /\ 1 = len [97] /\
  Prefix [97] [97; 98; 99].
Proof.
  apply (process_prompt_never_grows (Sample.service (- 2)) (of_string "abc")
           (mkResult (of_string "abc") [97; 98; 99] 3 [97] 1)).
  reflexivity.
Defined.

(** X14. With a limit that is not negative, the count after is exactly the
    smaller of the count before and the limit, and the tokens are returned
    untruncated exactly when the count before is within the limit. *)
Theorem process_prompt_count_after
  (svc : TokenService.t) (p : str) (r : ProcessingResult) :
  0 <= TokenTruncator.token_limit (truncator svc) ->
  returns (process_prompt svc p) r ->
  token_count_after r =
    Z.min (token_count_before r) (TokenTruncator.token_limit (truncator svc)) /\
  (truncated_tokens r = encoded_tokens r <->
   token_count_before r <= TokenTruncator.token_limit (truncator svc)).
Proof.
  intros Hlimit Hr.
  destruct (process_prompt_returns_inv svc p r Hr) as (tokens & _ & _ & ->).
  cbn [token_count_after token_count_before truncated_tokens encoded_tokens].
  destruct (Z.gtb_spec (len tokens) (TokenTruncator.token_limit (truncator svc)))
    as [Hgt | Hle].
  - rewrite slice_to_nonneg by assumption. split.
    + rewrite len_firstn. lia.
    + split; [| lia]. intros Heq.
      apply (f_equal len) in Heq. rewrite len_firstn in Heq. lia.
  - split; [lia | tauto].
Qed.

Lemma process_prompt_count_after_witness :
  2 = Z.min 3 2 /\ ([97; 98] = [97; 98; 99] <-> 3 <= 2).
Proof.
  assert (Hlimit : 0 <= TokenTruncator.token_limit
                          (truncator (Sample.service 2))) by (simpl; lia).
  apply (process_prompt_count_after (Sample.service 2) (of_string "abc")
           (mkResult (of_string "abc") [97; 98; 99] 3 [97; 98] 2)
           Hlimit).
  reflexivity.
Defined.

(** X15. The limit has no part in normalizing, encoding and the first
    count: when a service returns a result, every service with the same
    encoder and a limit above [- PyInt.str_limit] returns a result with the
    same [optimized_prompt], [encoded_tokens] and [token_count_before]. *)
Theorem process_prompt_limit_independent
  (svc1 svc2 : TokenService.t) (p : str) (r1 : ProcessingResult) :
  encoder svc1 = encoder svc2 ->
  - PyInt.str_limit < TokenTruncator.token_limit (truncator svc2) ->
  returns (process_prompt svc1 p) r1 ->
  exists r2,
    returns (process_prompt svc2 p) r2 /\
    optimized_prompt r2 = optimized_prompt r1 /\
    encoded_tokens r2 = encoded_tokens r1 /\
    token_count_before r2 = token_count_before r1.
Proof.
  intros Henc Hconv Hr1.
  destruct (process_prompt_returns_inv svc1 p r1 Hr1)
    as (tokens & Hcodec & _ & ->).
  rewrite Henc in Hcodec.
  assert (Hmeth : returns (TokenEncoder.encode (encoder svc2) (strip p)) tokens).
  { unfold returns. now rewrite encode_outcome. }
  eexists. split; [apply (process_prompt_returns svc2 p tokens Hconv Hmeth)|].
  repeat split.
Qed.

Lemma process_prompt_limit_independent_witness :
  exists r2,
    returns (process_prompt (Sample.service 100) (of_string "abc")) r2 /\
    optimized_prompt r2 = of_string "abc" /\
    encoded_tokens r2 = [97; 98; 99] /\
    token_count_before r2 = 3.
Proof.
  apply (process_prompt_limit_independent (Sample.service 1)
           (Sample.service 100) (of_string "abc")
           (mkResult (of_string "abc") [97; 98; 99] 3 [97] 1));
    reflexivity.
Defined.

(** X16. A prompt of whitespace only is processed as the empty prompt:
    when the codec encodes the empty text as the empty list, the call
    returns the empty text, no tokens and both counts 0, for every limit
    above [- PyInt.str_limit], negative ones included. *)
Theorem process_prompt_whitespace_only (svc : TokenService.t) (p : str) :
  all_space p ->
  tiktoken.encode (TokenEncoder.encoding (encoder svc)) [] = Ok [] ->
  - PyInt.str_limit < TokenTruncator.token_limit (truncator svc) ->
  returns (process_prompt svc p) (mkResult [] [] 0 [] 0).
Proof.
  intros Hp Hcodec Hconv.
  apply strip_nil_iff in Hp.
  assert (Hmeth : returns (TokenEncoder.encode (encoder svc) (strip p)) []).
  { unfold returns. now rewrite encode_outcome, Hp. }
  pose proof (process_prompt_returns svc p [] Hconv Hmeth) as Hr.
  rewrite Hp in Hr. cbv zeta in Hr.
  destruct (len (@nil Z) >? TokenTruncator.token_limit (truncator svc));
    [| exact Hr].
  unfold slice_to in Hr. now rewrite firstn_nil in Hr.
Qed.

Lemma process_prompt_whitespace_only_witness :
  returns (process_prompt (Sample.service (- 3)) [32; 9; 10]%N)
    (mkResult [] [] 0 [] 0).
Proof.
  apply (process_prompt_whitespace_only (Sample.service (- 3)) [32; 9; 10]%N).
  - repeat constructor.
  - reflexivity.
  - reflexivity.
Defined.

(** ** More on construction *)

Lemma service_init_bind
  (reg : tiktoken.Registry) (model : str) (L : Z)
  (l : list LogRecord) (r : Result TokenEncoder.t) :
  TokenEncoder.__init__ reg model = (l, r) ->
  TokenService.__init__ reg model L =
  (l,
   match r with
   | Ok enc =>
       Ok (TokenService.mk TokenOptimizer.new enc TokenCounter.new
             (TokenTruncator.mk L))
   | Err e => Err e
   end).
Proof.
  intros H. unfold TokenService.__init__, TokenTruncator.__init__.
  rewrite H. run_py. destruct r; [now rewrite app_nil_r | reflexivity].
Qed.

Lemma service_init_recognized_aux
  (reg : tiktoken.Registry) (model : str) (L : Z) (enc : tiktoken.Encoding) :
  tiktoken.encoding_for_model reg model = Ok enc ->
  outcome (TokenService.__init__ reg model L) =
  Ok (TokenService.mk TokenOptimizer.new (TokenEncoder.mk enc)
        TokenCounter.new (TokenTruncator.mk L)).
Proof.
  intros H.
  now rewrite (service_init_bind reg model L _ _
                 (encoder_init_recognized reg model enc H)).
Qed.

(** X17. For a model the registry recognises, the service is constructed
    with the encoding of that model and the given limit, and the one record
    emitted is "Initialized encoding for model" at level INFO; the fallback
    vocabulary is not looked up, whatever [get_encoding] would do. *)
Theorem service_init_recognized
  (reg : tiktoken.Registry) (model : str) (L : Z) (enc : tiktoken.Encoding) :
  tiktoken.encoding_for_model reg model = Ok enc ->
  TokenService.__init__ reg model L =
  ([mkLog INFO "Initialized encoding for model: " (AStr model)],
   Ok (TokenService.mk TokenOptimizer.new (TokenEncoder.mk enc)
         TokenCounter.new (TokenTruncator.mk L))).
Proof.
  intros H.
  now rewrite (service_init_bind reg model L _ _
                 (encoder_init_recognized reg model enc H)).
Qed.

Lemma service_init_recognized_witness :
  TokenService.__init__ Sample.registry (of_string "gpt-4") 8000 =
  ([mkLog INFO "Initialized encoding for model: " (AStr (of_string "gpt-4"))],
   Ok (Sample.service 8000)).
Proof.
  apply (service_init_recognized Sample.registry (of_string "gpt-4") 8000
           Sample.codepoints).
  reflexivity.
Defined.

(** X18. For a model whose lookup raises an [Exception], when the fallback
    vocabulary is available the service is constructed with it and the given
    limit; the one record emitted reports the exception of the first lookup
    at level ERROR. *)
Theorem service_init_fallback
  (reg : tiktoken.Registry) (model : str) (L : Z)
  (e : exn) (dflt : tiktoken.Encoding) :
  tiktoken.encoding_for_model reg model = Err e ->
  is_Exception e = true ->
  tiktoken.get_encoding reg TokenEncoder.fallback_encoding = Ok dflt ->
  TokenService.__init__ reg model L =
  ([mkLog ERROR "Failed to initialize tiktoken encoding: " (AExn e)],
   Ok (TokenService.mk TokenOptimizer.new (TokenEncoder.mk dflt)
         TokenCounter.new (TokenTruncator.mk L))).
Proof.
  intros He Hexc Hd.
  rewrite (service_init_bind reg model L _ _
             (encoder_init_unrecognized reg model e He Hexc)).
  now rewrite Hd.
Qed.

Lemma service_init_fallback_witness :
  TokenService.__init__ Sample.registry (of_string "no-such-model") 50 =
  ([mkLog ERROR "Failed to initialize tiktoken encoding: "
      (AExn (mkExn "KeyError" "could not map the model to a tokeniser" true))],
   Ok (Sample.service 50)).
Proof.
  apply (service_init_fallback Sample.registry (of_string "no-such-model") 50
           (mkExn "KeyError" "could not map the model to a tokeniser" true)
           Sample.codepoints);
    reflexivity.
Defined.

(** X19. When the lookup by model raises an [Exception] and the lookup of
    the fallback vocabulary raises too, the construction of the encoder and
    of the service raise the exception of the second lookup, after the
    record of the first at level ERROR: the handler does not guard its own
    lookup. *)
Theorem init_fallback_unavailable
  (reg : tiktoken.Registry) (model : str) (L : Z) (e e' : exn) :
  tiktoken.encoding_for_model reg model = Err e ->
  is_Exception e = true ->
  tiktoken.get_encoding reg TokenEncoder.fallback_encoding = Err e' ->
  TokenEncoder.__init__ reg model =
    ([mkLog ERROR "Failed to initialize tiktoken encoding: " (AExn e)],
     Err e') /\
  TokenService.__init__ reg model L =
    ([mkLog ERROR "Failed to initialize tiktoken encoding: " (AExn e)],
     Err e').
Proof.
  intros He Hexc Hd.
  pose proof (encoder_init_unrecognized reg model e He Hexc) as Hinit.
  rewrite Hd in Hinit.
  split; [exact Hinit|].
  now rewrite (service_init_bind reg model L _ _ Hinit).
Qed.

Lemma init_fallback_unavailable_witness :
  raises (TokenService.__init__ Sample.offline (of_string "gpt-4") 4096)
    (mkExn "ConnectionError" "vocabulary file unavailable" true).
Proof.
  unfold raises.
  rewrite (proj2 (init_fallback_unavailable Sample.offline (of_string "gpt-4")
                    4096
                    (mkExn "KeyError" "could not map the model to a tokeniser"
                       true)
                    (mkExn "ConnectionError" "vocabulary file unavailable" true)
                    eq_refl eq_refl eq_refl)).
  reflexivity.
Defined.

(** ** Construction followed by a call *)

(** X20. End to end with a negative limit [-k] above [- PyInt.str_limit]:
    constructing the service for a recognised model and processing a prompt
    the codec encodes returns
    a result whose truncated tokens lack the last [k] tokens of the encoding
    (all of them when there are at most [k]), with the count after
    [max 0 (count before - k)]. *)
Theorem negative_limit_end_to_end
  (reg : tiktoken.Registry) (model p : str) (k : Z)
  (enc : tiktoken.Encoding) (tokens : list Z) :
  0 < k -> k < PyInt.str_limit ->
  tiktoken.encoding_for_model reg model = Ok enc ->
  tiktoken.encode enc (strip p) = Ok tokens ->
  returns
    (svc <- TokenService.__init__ reg model (- k) ;; process_prompt svc p)
    (mkResult (strip p) tokens (len tokens)
       (firstn (Z.to_nat (Z.max 0 (len tokens - k))) tokens)
       (Z.max 0 (len tokens - k))).
Proof.
  intros Hk Hconv Hmodel Hcodec.
  apply returns_bind
    with (a := TokenService.mk TokenOptimizer.new (TokenEncoder.mk enc)
                 TokenCounter.new (TokenTruncator.mk (- k))).
  - unfold returns. now rewrite (service_init_recognized_aux reg model (- k) enc Hmodel).
  - unfold returns. rewrite process_prompt_outcome.
    cbn [encoder truncator TokenEncoder.encoding].
    rewrite Hcodec.
    pose proof (truncate_negative k tokens Hk Hconv) as Ht.
    unfold returns in Ht. rewrite Ht.
    rewrite len_firstn. pose proof (len_nonneg tokens) as Hlen.
    do 2 f_equal. lia.
Qed.

Lemma negative_limit_end_to_end_witness :
  returns
    (svc <- TokenService.__init__ Sample.registry (of_string "gpt-4") (- 2) ;;
     process_prompt svc (of_string " hello "))
    (mkResult (of_string "hello") [104; 101; 108; 108; 111] 5
       [104; 101; 108] 3).
Proof.
  assert (Hk : 0 < 2) by lia.
  assert (Hconv : 2 < PyInt.str_limit) by reflexivity.
  apply (negative_limit_end_to_end Sample.registry (of_string "gpt-4")
           (of_string " hello ") 2 Sample.codepoints
           [104; 101; 108; 108; 111] Hk Hconv eq_refl eq_refl).
Defined.
